(** * examples/launched-by-extension.py

    A shallow embedding of the example script that attaches to a running
    VS Code host through the pipe named by [VSCODE_SOCKPUPPET_PIPE] and
    drives a short sequence of UI requests.

    The script is glue code around a collaborator ([VSCodeClient]) that is
    not part of the file.  The embedding therefore has three layers:

    - [Py]: the Python values that cross the boundary (results of remote
      calls, arguments of f-strings), with truthiness, [str] and [repr];
    - [prog]: the script as a tree of observable actions ([print] and calls
      into the client), with Python's [raise], [try/except Exception] and
      [with] as combinators;
    - [exec]: the run of such a tree against an arbitrary host, which is a
      deterministic state machine answering each call by a returned value
      or a raised exception. *)

From Stdlib Require Import ZArith List String Ascii Bool Lia DecimalString.
Import ListNotations.

Local Open Scope list_scope.
Local Open Scope string_scope.

(** ** Python values *)

Module Py.

(** The values the host can hand back over the pipe: what a JSON reply
    decodes to (floats left out).  A [string] is read as a sequence of code
    points below 256. *)
#[local] Set Warnings "-register-all".

Inductive pyval : Type :=
| PNone
| PBool (b : bool)
| PInt (z : Z)
| PStr (s : string)
| PList (items : list pyval)
| PDict (entries : list (string * pyval)).

(** [bool(v)], the test performed by [if v:] and [not v]. *)
Definition truthy (v : pyval) : bool :=
  match v with
  | PNone => false
  | PBool b => b
  | PInt z => negb (Z.eqb z 0)
  | PStr s => negb (String.eqb s "")
  | PList items => match items with [] => false | _ :: _ => true end
  | PDict entries => match entries with [] => false | _ :: _ => true end
  end.

Definition nl : string := String "010"%char "".

Definition dquote : ascii := "034"%char.

Fixpoint join (sep : string) (l : list string) : string :=
  match l with
  | [] => ""
  | [x] => x
  | x :: rest => x ++ sep ++ join sep rest
  end.

Fixpoint mem_char (c : ascii) (s : string) : bool :=
  match s with
  | EmptyString => false
  | String d s' => Ascii.eqb c d || mem_char c s'
  end.

Definition hex_digit (n : nat) : ascii :=
  if Nat.ltb n 10 then ascii_of_nat (48 + n) else ascii_of_nat (87 + n).

(** [str.isprintable] on one code point below 256: controls (Cc), the
    no-break space (Zs) and the soft hyphen (Cf) are not printable. *)
Definition printable (c : ascii) : bool :=
  let n := nat_of_ascii c in
  (Nat.leb 32 n && Nat.ltb n 127)
  || (Nat.ltb 160 n && negb (Nat.eqb n 173)).

Definition repr_char (quote c : ascii) : string :=
  if Ascii.eqb c quote || Ascii.eqb c "\"%char then String "\"%char (String c "")
  else if Ascii.eqb c "009"%char then "\t"
  else if Ascii.eqb c "010"%char then "\n"
  else if Ascii.eqb c "013"%char then "\r"
  else if printable c then String c ""
  else let n := nat_of_ascii c in
       String "\"%char (String "x"%char
         (String (hex_digit (n / 16)) (String (hex_digit (n mod 16)) ""))).

Fixpoint repr_chars (quote : ascii) (s : string) : string :=
  match s with
  | EmptyString => ""
  | String c s' => repr_char quote c ++ repr_chars quote s'
  end.

(** [repr] of a [str]: single quotes, unless the text has a single quote
    and no double quote. *)
Definition repr_str (s : string) : string :=
  let quote :=
    if mem_char "'"%char s && negb (mem_char dquote s)
    then dquote else "'"%char in
  String quote (repr_chars quote s ++ String quote "").

Definition repr_int (z : Z) : string := NilZero.string_of_int (Z.to_int z).

Fixpoint repr (v : pyval) : string :=
  match v with
  | PNone => "None"
  | PBool true => "True"
  | PBool false => "False"
  | PInt z => repr_int z
  | PStr s => repr_str s
  | PList items => "[" ++ join ", " (map repr items) ++ "]"
  | PDict entries =>
      "{" ++ join ", " (map (fun kx : string * pyval =>
                           let (k, x) := kx in repr_str k ++ ": " ++ repr x)
                        entries)
          ++ "}"
  end.

(** [str(v)], which is what a replacement field [{v}] of an f-string
    inserts. *)
Definition str (v : pyval) : string :=
  match v with
  | PStr s => s
  | _ => repr v
  end.

Arguments truthy !v : simpl nomatch.
Arguments str !v : simpl nomatch.

End Py.
Import Py.

(** ** Exceptions and process outcomes *)

(** A raised object.  [except Exception] matches [PyException] only;
    [SystemExit] (what [sys.exit] raises) and the other direct children of
    [BaseException] ([KeyboardInterrupt], [GeneratorExit]) pass through it. *)
Inductive pyexc : Type :=
| SystemExit (code : Z)
| PyException (description : string)
| PyBaseException (description : string).

Definition isinstance_Exception (e : pyexc) : bool :=
  match e with
  | PyException _ => true
  | SystemExit _ | PyBaseException _ => false
  end.

(** [str(e)], inserted by [{e}]. *)
Definition exc_str (e : pyexc) : string :=
  match e with
  | SystemExit code => repr_int code
  | PyException description | PyBaseException description => description
  end.

Arguments isinstance_Exception !e : simpl nomatch.
Arguments exc_str !e : simpl nomatch.

(** How the interpreter ends after [main()]. *)
Inductive outcome : Type :=
| Exited (code : Z)
| Traceback (e : pyexc).

(** The status a POSIX parent sees when [SystemExit(code)] ends the
    interpreter: the code is converted to a C [long] (an integer that does
    not fit gives [-1]) and handed to [exit], which keeps its low 8 bits. *)
Definition exit_status (code : Z) : Z :=
  if Z.leb (- 2 ^ 63) code && Z.ltb code (2 ^ 63)
  then code mod 256
  else 255.

Arguments exit_status !code : simpl nomatch.

(** ** The boundary with the client library *)

(** Every entry into the collaborator: construction of the session, the two
    halves of the context-manager protocol, and the UI requests. *)
Inductive call : Type :=
| VSCodeClient (pipe_path : pyval)
| ctx_enter
| ctx_exit (exc : option pyexc)
| show_information_message (message : string)
| get_workspace_folders
| show_input_box (options : list (string * string))
| create_output_channel (name text : string) (show : bool)
| show_quick_pick (items : list string) (options : list (string * string))
| set_status_bar_message (text : string) (timeout : Z).

Inductive response : Type :=
| Returns (v : pyval)
| Raises (e : pyexc).

Inductive event : Type :=
| EPrint (line : string)
| ECall (c : call) (r : response).

Definition trace : Type := list event.

(** ** Programs *)

Inductive prog (A : Type) : Type :=
| Ret (a : A)
| Raise (e : pyexc)
| Output (line : string) (k : prog A)
| Call (c : call) (k : response -> prog A).

Arguments Ret {A} a.
Arguments Raise {A} e.
Arguments Output {A} line k.
Arguments Call {A} c k.

Fixpoint bind {A B : Type} (m : prog A) (f : A -> prog B) : prog B :=
  match m with
  | Ret a => f a
  | Raise e => Raise e
  | Output line k => Output line (bind k f)
  | Call c k => Call c (fun r => bind (k r) f)
  end.

Declare Scope prog_scope.
Delimit Scope prog_scope with prog.
Notation "x <- m ;; k" := (bind m (fun x => k))
  (at level 61, m at next level, right associativity) : prog_scope.
Notation "m ;; k" := (bind m (fun _ => k))
  (at level 61, right associativity) : prog_scope.
Local Open Scope prog_scope.

Definition print (line : string) : prog unit := Output line (Ret tt).

(** A call into the client: its value if it returns, its exception raised
    in the caller otherwise. *)
Definition remote (c : call) : prog pyval :=
  Call c (fun r => match r with Returns v => Ret v | Raises e => Raise e end).

Definition sys_exit {A : Type} (code : Z) : prog A := Raise (SystemExit code).

(** [try: body  except Exception as e: handler e]. *)
Fixpoint try_except_Exception {A : Type}
    (body : prog A) (handler : pyexc -> prog A) : prog A :=
  match body with
  | Ret a => Ret a
  | Raise e => if isinstance_Exception e then handler e else Raise e
  | Output line k => Output line (try_except_Exception k handler)
  | Call c k => Call c (fun r => try_except_Exception (k r) handler)
  end.

(** The block of a [with] statement once [__enter__] has returned:
    [__exit__] is called when the block ends, with the exception in flight
    if there is one; a true result swallows that exception. *)
Fixpoint with_block (block : prog unit) : prog unit :=
  match block with
  | Ret _ => remote (ctx_exit None) ;; Ret tt
  | Raise e =>
      Call (ctx_exit (Some e))
        (fun r => match r with
                  | Returns v => if truthy v then Ret tt else Raise e
                  | Raises e' => Raise e'
                  end)
  | Output line k => Output line (with_block k)
  | Call c k => Call c (fun r => with_block (k r))
  end.

(** [with mgr as x: block x]: the manager expression is evaluated, then
    [__enter__]; neither is covered by [__exit__]. *)
Definition with_ (mgr : call) (block : pyval -> prog unit) : prog unit :=
  remote mgr ;;
  x <- remote ctx_enter ;;
  with_block (block x).

(** ** The script *)

Definition environment : Type := list (string * string).

(** [os.environ.get(key)]. *)
Fixpoint os_environ_get (environ : environment) (key : string) : pyval :=
  match environ with
  | [] => PNone
  | (k, v) :: rest => if String.eqb k key then PStr v else os_environ_get rest key
  end.

Definition main (environ : environment) : prog unit :=
  let pipe_path := os_environ_get environ "VSCODE_SOCKPUPPET_PIPE" in
  (if negb (truthy pipe_path) then
     print "Error: VSCODE_SOCKPUPPET_PIPE environment variable not set" ;;
     print "This script should be launched by an extension using Sockpuppet API" ;;
     sys_exit 1
   else Ret tt) ;;
  print ("Connecting to VS Code via: " ++ str pipe_path) ;;
  try_except_Exception
    (with_ (VSCodeClient pipe_path) (fun vscode =>
       remote (show_information_message
                 "Hello from Python! I was launched by another extension.") ;;
       folders <- remote get_workspace_folders ;;
       print ("Workspace folders: " ++ str folders) ;;
       name <- remote (show_input_box [("prompt", "What's your name?");
                                       ("placeholder", "Enter your name")]) ;;
       (if truthy name then
          remote (create_output_channel
                    "Python Automation"
                    ("Hello, " ++ str name ++ "! This is Python speaking." ++ nl)
                    true) ;;
          choice <- remote (show_quick_pick
                              ["Option A"; "Option B"; "Option C"]
                              [("placeholder",
                                "Hi " ++ str name ++ ", choose an option")]) ;;
          if truthy choice then
            remote (show_information_message ("You selected: " ++ str choice)) ;;
            Ret tt
          else Ret tt
        else Ret tt) ;;
       remote (set_status_bar_message "Python automation completed!" 5000) ;;
       print "Automation completed successfully"))
    (fun e => print ("Error: " ++ exc_str e) ;; sys_exit 1).

(** ** Running a program against a host *)

Inductive result (A : Type) : Type :=
| Normal (a : A)
| Raised (e : pyexc).

Arguments Normal {A} a.
Arguments Raised {A} e.

Section Run.

(** The host: everything behind the client library, as a state machine. *)
Context {H : Type}.
Variable respond : H -> call -> response * H.

Fixpoint exec {A : Type} (p : prog A) (h : H) : trace * result A :=
  match p with
  | Ret a => ([], Normal a)
  | Raise e => ([], Raised e)
  | Output line k =>
      let (t, r) := exec k h in (EPrint line :: t, r)
  | Call c k =>
      let (r, h') := respond h c in
      let (t, res) := exec (k r) h' in (ECall c r :: t, res)
  end.

(** [if __name__ == "__main__": main()]: a normal return ends the process
    with status 0, [SystemExit] with the status of its code, anything else
    with a traceback. *)
Definition run_script (environ : environment) (h : H) : trace * outcome :=
  let (t, r) := exec (main environ) h in
  (t, match r with
      | Normal _ => Exited 0
      | Raised (SystemExit code) => Exited (exit_status code)
      | Raised e => Traceback e
      end).

End Run.

(** ** Observations on a trace *)

Fixpoint requests (t : trace) : list call :=
  match t with
  | [] => []
  | EPrint _ :: t' => requests t'
  | ECall c _ :: t' => c :: requests t'
  end.

Fixpoint responses (t : trace) : list response :=
  match t with
  | [] => []
  | EPrint _ :: t' => responses t'
  | ECall _ r :: t' => r :: responses t'
  end.

Fixpoint stdout (t : trace) : list string :=
  match t with
  | [] => []
  | EPrint line :: t' => line :: stdout t'
  | ECall _ _ :: t' => stdout t'
  end.

(** The first response to a call of the given kind, if any was made. *)
Fixpoint answer_to (kind : call -> bool) (t : trace) : option response :=
  match t with
  | [] => None
  | EPrint _ :: t' => answer_to kind t'
  | ECall c r :: t' => if kind c then Some r else answer_to kind t'
  end.

(** The value a call of the given kind handed back to the script; [None]
    when it was not made or did not return. *)
Definition returned (kind : call -> bool) (t : trace) : pyval :=
  match answer_to kind t with
  | Some (Returns v) => v
  | _ => PNone
  end.

Definition is_raise (ev : event) : bool :=
  match ev with
  | ECall _ (Raises _) => true
  | _ => false
  end.

(** Some call of the run raised. *)
Definition raised (t : trace) : bool := existsb is_raise t.

Definition is_VSCodeClient (c : call) : bool :=
  match c with VSCodeClient _ => true | _ => false end.
Definition is_ctx_enter (c : call) : bool :=
  match c with ctx_enter => true | _ => false end.
Definition is_ctx_exit (c : call) : bool :=
  match c with ctx_exit _ => true | _ => false end.
Definition is_show_information_message (c : call) : bool :=
  match c with show_information_message _ => true | _ => false end.
Definition is_get_workspace_folders (c : call) : bool :=
  match c with get_workspace_folders => true | _ => false end.
Definition is_show_input_box (c : call) : bool :=
  match c with show_input_box _ => true | _ => false end.
Definition is_create_output_channel (c : call) : bool :=
  match c with create_output_channel _ _ _ => true | _ => false end.
Definition is_show_quick_pick (c : call) : bool :=
  match c with show_quick_pick _ _ => true | _ => false end.
Definition is_set_status_bar_message (c : call) : bool :=
  match c with set_status_bar_message _ _ => true | _ => false end.

(** Opening the session: the constructor and [__enter__]. *)
Definition is_open (c : call) : bool := is_VSCodeClient c || is_ctx_enter c.

(** The UI actions: every call on [vscode.window] and [vscode.workspace]. *)
Definition is_ui_action (c : call) : bool :=
  negb (is_open c || is_ctx_exit c).

Definition pipe_variable : string := "VSCODE_SOCKPUPPET_PIPE".

Definition greeting : string :=
  "Hello from Python! I was launched by another extension.".

Definition input_box_options : list (string * string) :=
  [("prompt", "What's your name?"); ("placeholder", "Enter your name")].

(** ** A scripted host, for examples *)

(** Answers the calls with the given responses, in order; once they are
    used up every call returns [None]. *)
Definition scripted (rs : list response) (c : call) : response * list response :=
  match rs with
  | [] => (Returns PNone, [])
  | r :: rs' => (r, rs')
  end.

(** The host [respond] with the answer to one kind of call replaced by the
    value [v]; its state moves as before. *)
Definition answering {H : Type} (kind : call -> bool) (v : pyval)
    (respond : H -> call -> response * H) (h : H) (c : call) : response * H :=
  if kind c then (Returns v, snd (respond h c)) else respond h c.

Arguments answering {H} kind v respond h !c /.

(** What a run shows to the outside: its requests, its standard output and
    its exit status. *)
Definition observable (run : trace * outcome) : list call * list string * outcome :=
  (requests (fst run), stdout (fst run), snd run).



(** The order of the UI requests as the specification lists it, for the
    name and the selection the two prompts produced: greeting, folders,
    input box, then (with a name) output channel and quick pick, then (with
    a selection) the second notification, then the status-bar message. *)
Definition claimed_order (name choice : pyval) : list call :=
  let second_notification :=
    if truthy choice
    then [show_information_message ("You selected: " ++ str choice)]
    else [] in
  let with_name :=
    if truthy name
    then create_output_channel "Python Automation"
           ("Hello, " ++ str name ++ "! This is Python speaking." ++ nl) true
         :: show_quick_pick ["Option A"; "Option B"; "Option C"]
              [("placeholder", "Hi " ++ str name ++ ", choose an option")]
         :: second_notification
    else [] in
  show_information_message greeting
  :: get_workspace_folders
  :: show_input_box input_box_options
  :: List.app with_name
       [set_status_bar_message "Python automation completed!" 5000].

(** The reading of the specification under which a session that fails to
    open is still released: no UI action, a call of the release path, the
    error on standard output, exit status 1. *)
Definition released_after_failed_open {H : Type}
    (respond : H -> call -> response * H) (environ : environment) (h : H) : Prop :=
  forall t out pre c e post,
    run_script respond environ h = (t, out) ->
    t = List.app pre (ECall c (Raises e) :: post) ->
    is_open c = true ->
    existsb is_ui_action (requests t) = false
    /\ existsb is_ctx_exit (requests t) = true
    /\ In ("Error: " ++ exc_str e) (stdout t)
    /\ out = Exited 1.

(** The reading of the specification under which a UI action that raises
    an [Exception] always ends the run with the error line and status 1:
    no later UI action, the session released, "Error: <description>"
    printed, exit status 1. *)
Definition reported_after_ui_failure {H : Type}
    (respond : H -> call -> response * H) (environ : environment) (h : H) : Prop :=
  forall t out pre c e post,
    run_script respond environ h = (t, out) ->
    t = List.app pre (ECall c (Raises e) :: post) ->
    is_ui_action c = true ->
    isinstance_Exception e = true ->
    existsb is_ui_action (requests post) = false
    /\ existsb is_ctx_exit (requests post) = true
    /\ In ("Error: " ++ exc_str e) (stdout post)
    /\ out = Exited 1.

(** [__enter__] was called and returned: the block of the [with] statement
    was reached. *)
Definition entered (t : trace) : bool :=
  match answer_to is_ctx_enter t with
  | Some (Returns _) => true
  | _ => false
  end.

(** Everything that was raised during the run is an instance of
    [Exception]. *)
Definition only_Exceptions (t : trace) : bool :=
  forallb (fun ev => match ev with
                     | ECall _ (Raises e) => isinstance_Exception e
                     | _ => true
                     end) t.

(** A line of the [except] clause. *)
Definition is_error_line (line : string) : bool := String.prefix "Error: " line.

(** ** Sample runs *)

Definition launched : environment :=
  [("PATH", "/usr/bin"); ("VSCODE_SOCKPUPPET_PIPE", "/tmp/sockpuppet.pipe")].

Definition not_launched : environment := [("PATH", "/usr/bin")].

Definition launched_empty : environment := [("VSCODE_SOCKPUPPET_PIPE", "")].

(** The constructor, [__enter__] and the greeting return [None]; then the
    answers to the folder request and to the input box follow. *)
Definition opened (folders name : response) : list response :=
  [Returns PNone; Returns PNone; Returns PNone; folders; name].

Definition ada_selects_b : list response :=
  List.app (opened (Returns (PList [PStr "/ws/a"])) (Returns (PStr "Ada")))
           [Returns PNone; Returns (PStr "Option B")].

Definition ada_selects_nothing : list response :=
  List.app (opened (Returns (PList [])) (Returns (PStr "Ada")))
           [Returns PNone; Returns PNone].

Definition input_cancelled : list response :=
  opened (Returns (PList [])) (Returns PNone).

Definition input_empty : list response :=
  opened (Returns (PList [])) (Returns (PStr "")).

Definition pipe_missing : list response :=
  [Raises (PyException "[Errno 2] No such file or directory")].

Definition connect_refused : list response :=
  [Returns PNone; Raises (PyException "Could not connect to VS Code")].

Definition quick_pick_fails : list response :=
  List.app (opened (Returns (PList [])) (Returns (PStr "Ada")))
           [Returns PNone; Raises (PyException "request timed out")].

Definition greeting_fails_swallowed : list response :=
  [Returns PNone; Returns PNone; Raises (PyException "boom"); Returns (PBool true)].

Definition interrupted : list response :=
  [Returns PNone; Returns PNone; Raises (PyBaseException "KeyboardInterrupt")].

Definition release_fails : list response :=
  List.app ada_selects_b
           [Returns PNone; Returns PNone; Raises (PyException "Broken pipe")].

(** A host without memory that returns [None] to every call. *)
Definition silent (h : unit) (c : call) : response * unit := (Returns PNone, tt).

(** * Examples *)

Example run_ada_selects_b :
  run_script scripted launched ada_selects_b
  = ([EPrint "Connecting to VS Code via: /tmp/sockpuppet.pipe";
      ECall (VSCodeClient (PStr "/tmp/sockpuppet.pipe")) (Returns PNone);
      ECall ctx_enter (Returns PNone);
      ECall (show_information_message greeting) (Returns PNone);
      ECall get_workspace_folders (Returns (PList [PStr "/ws/a"]));
      EPrint "Workspace folders: ['/ws/a']";
      ECall (show_input_box input_box_options) (Returns (PStr "Ada"));
      ECall (create_output_channel "Python Automation"
               ("Hello, Ada! This is Python speaking." ++ nl) true)
            (Returns PNone);
      ECall (show_quick_pick ["Option A"; "Option B"; "Option C"]
               [("placeholder", "Hi Ada, choose an option")])
            (Returns (PStr "Option B"));
      ECall (show_information_message "You selected: Option B") (Returns PNone);
      ECall (set_status_bar_message "Python automation completed!" 5000)
            (Returns PNone);
      EPrint "Automation completed successfully";
      ECall (ctx_exit None) (Returns PNone)],
     Exited 0).
Proof. reflexivity. Qed.

Example run_quick_pick_fails :
  run_script scripted launched quick_pick_fails
  = ([EPrint "Connecting to VS Code via: /tmp/sockpuppet.pipe";
      ECall (VSCodeClient (PStr "/tmp/sockpuppet.pipe")) (Returns PNone);
      ECall ctx_enter (Returns PNone);
      ECall (show_information_message greeting) (Returns PNone);
      ECall get_workspace_folders (Returns (PList []));
      EPrint "Workspace folders: []";
      ECall (show_input_box input_box_options) (Returns (PStr "Ada"));
      ECall (create_output_channel "Python Automation"
               ("Hello, Ada! This is Python speaking." ++ nl) true)
            (Returns PNone);
      ECall (show_quick_pick ["Option A"; "Option B"; "Option C"]
               [("placeholder", "Hi Ada, choose an option")])
            (Raises (PyException "request timed out"));
      ECall (ctx_exit (Some (PyException "request timed out"))) (Returns PNone);
      EPrint "Error: request timed out"],
     Exited 1).
Proof. reflexivity. Qed.

(** An [__exit__] that returns a true value swallows the exception: the
    [with] statement ends normally and so does the script. *)
Example run_exit_swallows :
  run_script scripted launched
    [Returns PNone; Returns PNone; Raises (PyException "boom"); Returns (PBool true)]
  = ([EPrint "Connecting to VS Code via: /tmp/sockpuppet.pipe";
      ECall (VSCodeClient (PStr "/tmp/sockpuppet.pipe")) (Returns PNone);
      ECall ctx_enter (Returns PNone);
      ECall (show_information_message greeting) (Raises (PyException "boom"));
      ECall (ctx_exit (Some (PyException "boom"))) (Returns (PBool true))],
     Exited 0).
Proof. reflexivity. Qed.

(** [except Exception] lets a [KeyboardInterrupt] through. *)
Example run_interrupted :
  run_script scripted launched
    [Returns PNone; Returns PNone; Raises (PyBaseException "KeyboardInterrupt")]
  = ([EPrint "Connecting to VS Code via: /tmp/sockpuppet.pipe";
      ECall (VSCodeClient (PStr "/tmp/sockpuppet.pipe")) (Returns PNone);
      ECall ctx_enter (Returns PNone);
      ECall (show_information_message greeting)
            (Raises (PyBaseException "KeyboardInterrupt"));
      ECall (ctx_exit (Some (PyBaseException "KeyboardInterrupt"))) (Returns PNone)],
     Traceback (PyBaseException "KeyboardInterrupt")).
Proof. reflexivity. Qed.

Example run_connect_refused :
  run_script scripted launched connect_refused
  = ([EPrint "Connecting to VS Code via: /tmp/sockpuppet.pipe";
      ECall (VSCodeClient (PStr "/tmp/sockpuppet.pipe")) (Returns PNone);
      ECall ctx_enter (Raises (PyException "Could not connect to VS Code"));
      EPrint "Error: Could not connect to VS Code"],
     Exited 1).
Proof. reflexivity. Qed.


(** A [SystemExit] raised by the client passes the [except] clause and ends
    the process with the status of its code. *)
Example run_client_exits_256 :
  run_script scripted launched [Raises (SystemExit 256)]
  = ([EPrint "Connecting to VS Code via: /tmp/sockpuppet.pipe";
      ECall (VSCodeClient (PStr "/tmp/sockpuppet.pipe")) (Raises (SystemExit 256))],
     Exited 0).
Proof. reflexivity. Qed.

Example exit_status_wraps :
  (exit_status 1 = 1 /\ exit_status 256 = 0 /\ exit_status (-1) = 255
   /\ exit_status (2 ^ 64) = 255)%Z.
Proof. repeat split. Qed.

Example repr_folders : repr (PList [PStr "/ws/a"]) = "['/ws/a']".
Proof. reflexivity. Qed.

Example repr_quotes :
  repr (PStr "What's") = String dquote ("What's" ++ String dquote "").
Proof. reflexivity. Qed.

Example repr_misc :
  repr (PDict [("name", PStr "a"); ("index", PInt (-12)); ("ok", PBool true)])
  = "{'name': 'a', 'index': -12, 'ok': True}".
Proof. reflexivity. Qed.

Example repr_escape : repr (PStr ("a" ++ nl ++ String (ascii_of_nat 1) "")) = "'a\n\x01'".
Proof. reflexivity. Qed.

(** * Properties *)

(** ** Stepping through a run *)

(** Splits a run equation on every answer of the host and every test of the
    script, down to the finished traces. *)
Ltac run_step Hrun :=
  cbn in Hrun;
  match type of Hrun with
  | context [match ?f ?h ?c with pair _ _ => _ end] =>
      is_var f;
      let r := fresh "r" in
      let h' := fresh "h" in
      destruct (f h c) as [r h']; destruct r
  | context [truthy ?v] =>
      let E := fresh "Etruthy" in destruct (truthy v) eqn:E
  | context [if isinstance_Exception ?e then _ else _] =>
      destruct e
  | context [match ?e with SystemExit _ => _ | _ => _ end] =>
      destruct e
  end.

(** String literals are set aside while stepping, so that the terms stay
    small; they come back once the trace is finished. *)
Ltac hide_literals Hrun :=
  repeat match type of Hrun with
         | context [String ?a ?s] =>
             let lit := fresh "lit" in
             remember (String a s) as lit in Hrun
         end.

Ltac show_literals :=
  repeat match goal with
         | E : ?lit = String _ _ |- _ => subst lit
         end.

Ltac run_cases Hrun :=
  unfold run_script, main in Hrun; cbv zeta in Hrun;
  unfold with_, remote, print, sys_exit in Hrun;
  hide_literals Hrun;
  repeat run_step Hrun;
  cbn in Hrun;
  lazymatch type of Hrun with
  | (_, _) = (_, _) => injection Hrun as <- <-
  end.

Ltac by_cases Hrun := run_cases Hrun; cbn in *; intros.

Lemma truthy_address (address : string) :
  address <> "" -> truthy (PStr address) = true.
Proof.
  intros Hset. unfold truthy.
  destruct (String.eqb_spec address ""); [contradiction | reflexivity].
Qed.

(** The same, for a run whose address is known to be set. *)
Ltac by_cases_at Hrun Henv Hset :=
  unfold pipe_variable in Henv;
  unfold run_script, main in Hrun; rewrite Henv in Hrun;
  cbv zeta in Hrun; rewrite (truthy_address _ Hset) in Hrun;
  unfold str in Hrun at 1;
  by_cases Hrun.

Ltac same_answers :=
  repeat match goal with
         | E : Some _ = Some _ |- _ => inversion E; subst; clear E
         end.

(** Where a finished trace can be cut around one of its events. *)
Lemma cut_nil {A : Type} (pre post : list A) (y : A) :
  [] = List.app pre (y :: post) -> False.
Proof. destruct pre; discriminate. Qed.

Lemma cut_cons {A : Type} (x : A) (l pre post : list A) (y : A) :
  x :: l = List.app pre (y :: post) ->
  (pre = [] /\ x = y /\ l = post)
  \/ (exists pre', pre = x :: pre' /\ l = List.app pre' (y :: post)).
Proof.
  destruct pre as [| x' pre']; cbn; intros Hcut; injection Hcut as -> ->.
  - left. auto.
  - right. exists pre'. auto.
Qed.

Ltac cut_trace Hcut :=
  lazymatch type of Hcut with
  | [] = _ => destruct (cut_nil _ _ _ Hcut)
  | _ :: _ = _ =>
      let Hev := fresh "Hev" in
      apply cut_cons in Hcut;
      destruct Hcut as [(-> & Hev & <-) | (? & -> & Hcut)];
      [ try discriminate Hev; try (injection Hev as <- <-)
      | cut_trace Hcut ]
  end.

Ltac known_truth :=
  repeat match goal with
         | E : truthy ?v = _ |- context [truthy ?v] => rewrite E
         end.


Ltac subst_right :=
  repeat match goal with
         | E : _ = ?b |- _ => is_var b; subst b
         end.

(** Cuts a finished trace at every event that fits the one looked for. *)
Ltac cut_event Hcut :=
  lazymatch type of Hcut with
  | [] = _ => destruct (cut_nil _ _ _ Hcut)
  | _ :: _ = _ =>
      let Hev := fresh "Hev" in
      apply cut_cons in Hcut;
      destruct Hcut as [(-> & Hev & <-) | (? & -> & Hcut)];
      [ try discriminate Hev;
        try (injection Hev; clear Hev; intros; subst_right)
      | cut_event Hcut ]
  end.

Section Properties.

Context {H : Type}.
Variable respond : H -> call -> response * H.

(** C1. When [VSCODE_SOCKPUPPET_PIPE] is absent or empty, the run prints
    the two diagnostic lines and nothing else, exits with status 1, and
    makes no call into the client: the session constructor is never
    reached. *)
Theorem missing_address_exits_1 (environ : environment) (h : H) t out :
  run_script respond environ h = (t, out) ->
  os_environ_get environ pipe_variable = PNone
  \/ os_environ_get environ pipe_variable = PStr "" ->
  stdout t
  = ["Error: VSCODE_SOCKPUPPET_PIPE environment variable not set";
     "This script should be launched by an extension using Sockpuppet API"]
  /\ out = Exited 1
  /\ existsb is_VSCodeClient (requests t) = false
  /\ requests t = [].
Proof.
  intros Hrun Henv. unfold pipe_variable in Henv.
  unfold run_script, main in Hrun.
  destruct Henv as [-> | ->] in Hrun; cbn in Hrun;
    inversion Hrun; subst; cbn; auto.
Qed.


(** C3. When the input box hands back the "no input" signal ([None]) and
    no call raises, the output channel is not created and the quick pick is
    not shown, the status-bar message is still requested, and the exit
    status is 0. *)
Theorem cancelled_input_skips_name_steps
    (environ : environment) (h : H) t out :
  run_script respond environ h = (t, out) ->
  raised t = false ->
  answer_to is_show_input_box t = Some (Returns PNone) ->
  existsb is_create_output_channel (requests t) = false
  /\ existsb is_show_quick_pick (requests t) = false
  /\ In (set_status_bar_message "Python automation completed!" 5000) (requests t)
  /\ requests t
     = [VSCodeClient (os_environ_get environ pipe_variable);
        ctx_enter;
        show_information_message greeting;
        get_workspace_folders;
        show_input_box input_box_options;
        set_status_bar_message "Python automation completed!" 5000;
        ctx_exit None]
  /\ out = Exited 0.
Proof.
  intros Hrun.
  by_cases Hrun; try discriminate;
    same_answers; try discriminate; show_literals; cbn; intuition.
Qed.

(** C4. When the input box hands back a name, the quick pick hands back the
    "no selection" signal ([None]) and no call raises, the output channel
    is created, no notification embedding a selection is requested, the
    status-bar message is still requested, and the exit status is 0. *)
Theorem cancelled_selection_skips_second_notification
    (environ : environment) (h : H) (name : pyval) t out :
  run_script respond environ h = (t, out) ->
  raised t = false ->
  answer_to is_show_input_box t = Some (Returns name) ->
  truthy name = true ->
  answer_to is_show_quick_pick t = Some (Returns PNone) ->
  existsb is_create_output_channel (requests t) = true
  /\ (forall selection,
        ~ In (show_information_message ("You selected: " ++ selection))
             (requests t))
  /\ In (set_status_bar_message "Python automation completed!" 5000) (requests t)
  /\ requests t
     = [VSCodeClient (os_environ_get environ pipe_variable);
        ctx_enter;
        show_information_message greeting;
        get_workspace_folders;
        show_input_box input_box_options;
        create_output_channel "Python Automation"
          ("Hello, " ++ str name ++ "! This is Python speaking." ++ nl) true;
        show_quick_pick ["Option A"; "Option B"; "Option C"]
          [("placeholder", "Hi " ++ str name ++ ", choose an option")];
        set_status_bar_message "Python automation completed!" 5000;
        ctx_exit None]
  /\ out = Exited 0.
Proof.
  intros Hrun.
  by_cases Hrun; try discriminate;
    same_answers; try congruence; show_literals; cbn;
    intuition; discriminate.
Qed.

(** C5, as the code has it. When the constructor or [__enter__] raises an
    [Exception], no UI action is requested and [__exit__] is not called
    either (no session was entered, so the [with] statement has nothing to
    release); the run goes on with the line "Error: <description>" only,
    and the exit status is 1. *)
Theorem failed_open_reports_error
    (environ : environment) (h : H) t out pre c e post :
  run_script respond environ h = (t, out) ->
  t = List.app pre (ECall c (Raises e) :: post) ->
  is_open c = true ->
  isinstance_Exception e = true ->
  existsb is_ui_action (requests t) = false
  /\ existsb is_ctx_exit (requests t) = false
  /\ post = [EPrint ("Error: " ++ exc_str e)]
  /\ out = Exited 1.
Proof.
  intros Hrun.
  run_cases Hrun; intros Hcut Hopen Hexc; cbn in Hcut;
    cut_trace Hcut; try discriminate; show_literals; cbn; auto.
Qed.

(** C6, as the code has it. When a UI action raises an [Exception], the next
    event of the run
    is the call of [__exit__] with that exception, and no other request
    follows; when [__exit__] returns a false value, as a release that only
    closes the connection does, the run ends with the line
    "Error: <description>", whatever the exception is, and the exit
    status is 1. *)
Theorem ui_failure_aborts_run
    (environ : environment) (h : H) t out pre c e post :
  run_script respond environ h = (t, out) ->
  t = List.app pre (ECall c (Raises e) :: post) ->
  is_ui_action c = true ->
  isinstance_Exception e = true ->
  exists r post',
    post = ECall (ctx_exit (Some e)) r :: post'
    /\ requests post' = []
    /\ (forall v, r = Returns v -> truthy v = false ->
        post' = [EPrint ("Error: " ++ exc_str e)] /\ out = Exited 1).
Proof.
  intros Hrun.
  run_cases Hrun; intros Hcut Hui Hexc; cbn in Hcut;
    cut_trace Hcut; try discriminate; show_literals;
    (do 2 eexists; split; [reflexivity | split; [reflexivity |]]);
    intros v' Hr Hfalse; try discriminate Hr;
    injection Hr as <-; try congruence; auto.
Qed.


(** C8. An empty string from the input box is a false value, so the run
    goes the way of a cancelled input: against one host, answering the
    input box with the empty string or with [None] gives the same requests,
    the same output and the same exit status; and when no call raises, the
    output channel and the quick pick are skipped, the status-bar message
    is requested and the exit status is 0. *)
Theorem empty_name_is_treated_as_cancelled (environ : environment) (h : H) :
  observable (run_script (answering is_show_input_box (PStr "") respond) environ h)
  = observable (run_script (answering is_show_input_box PNone respond) environ h)
  /\ forall t out,
       run_script respond environ h = (t, out) ->
       raised t = false ->
       answer_to is_show_input_box t = Some (Returns (PStr "")) ->
       existsb is_create_output_channel (requests t) = false
       /\ existsb is_show_quick_pick (requests t) = false
       /\ In (set_status_bar_message "Python automation completed!" 5000)
             (requests t)
       /\ out = Exited 0.
Proof.
  split.
  - destruct (run_script (answering is_show_input_box (PStr "") respond) environ h)
      as [t1 out1] eqn:Hrun1.
    destruct (run_script (answering is_show_input_box PNone respond) environ h)
      as [t2 out2] eqn:Hrun2.
    assert (Hrun : (run_script (answering is_show_input_box (PStr "") respond)
                      environ h,
                    run_script (answering is_show_input_box PNone respond)
                      environ h)
                   = (t1, out1, (t2, out2)))
      by (rewrite Hrun1, Hrun2; reflexivity).
    clear Hrun1 Hrun2.
    unfold run_script, main in Hrun; cbv zeta in Hrun.
    unfold with_, remote, print, sys_exit in Hrun.
    hide_literals Hrun.
    repeat run_step Hrun.
    all: cbn in Hrun; injection Hrun as <- <- <- <-; reflexivity.
  - intros t out Hrun.
    by_cases Hrun; try discriminate;
      same_answers; try discriminate; cbn; intuition.
Qed.

(** C10. With the address set, the first event of the run is the line
    "Connecting to VS Code via: <address>" and the second is the call of
    the session constructor, whatever that call and the rest of the run
    turn out to be; with the address absent or empty, no line of the output
    starts with "Connecting to VS Code via: ". *)
Theorem connecting_line_precedes_acquisition
    (environ : environment) (h : H) t out :
  run_script respond environ h = (t, out) ->
  (forall address,
      os_environ_get environ pipe_variable = PStr address ->
      address <> "" ->
      exists r rest,
        t = EPrint ("Connecting to VS Code via: " ++ address)
            :: ECall (VSCodeClient (PStr address)) r
            :: rest)
  /\ (os_environ_get environ pipe_variable = PNone
      \/ os_environ_get environ pipe_variable = PStr "" ->
      existsb (String.prefix "Connecting to VS Code via: ") (stdout t) = false).
Proof.
  intros Hrun. unfold run_script, main, pipe_variable in *.
  cbv zeta in Hrun. split.
  - intros address Henv Hset.
    rewrite Henv, (truthy_address _ Hset) in Hrun.
    unfold with_, remote, print in Hrun. cbn in Hrun.
    destruct (respond h (VSCodeClient (PStr address))) as [r h'].
    match type of Hrun with
    | context [exec respond ?p h'] => destruct (exec respond p h') as [rest res]
    end.
    injection Hrun as <- _. exists r, rest. reflexivity.
  - intros [Henv | Henv]; rewrite Henv in Hrun; cbn in Hrun;
      injection Hrun as <- _; reflexivity.
Qed.

End Properties.

(** ** Release, failures and exit status *)

Section More.

Context {H : Type}.
Variable respond : H -> call -> response * H.

(** X1. The session is released exactly when it was entered: if
    [__enter__] returned, the run makes one call of [__exit__] and it is its
    last request; otherwise it makes none. *)
Theorem session_released_exactly_once
    (environ : environment) (h : H) t out :
  run_script respond environ h = (t, out) ->
  (entered t = true ->
   exists front x,
     requests t = List.app front [ctx_exit x]
     /\ existsb is_ctx_exit front = false)
  /\ (entered t = false -> existsb is_ctx_exit (requests t) = false).
Proof.
  intros Hrun.
  run_cases Hrun; unfold entered; cbn;
    (split; intros Hentered; try discriminate Hentered; try reflexivity);
    match goal with
    | |- exists front x, ?l = _ /\ _ => exists (removelast l)
    end; eexists; split; reflexivity.
Qed.

(** X2. No UI request is issued outside the session: whenever one is made,
    [__enter__] has returned before it and [__exit__] has not been called
    yet. *)
Theorem ui_requests_inside_session
    (environ : environment) (h : H) t out pre c r post :
  run_script respond environ h = (t, out) ->
  t = List.app pre (ECall c r :: post) ->
  is_ui_action c = true ->
  entered pre = true /\ existsb is_ctx_exit (requests pre) = false.
Proof.
  intros Hrun.
  run_cases Hrun; intros Hcut Hui; cbn in Hcut;
    cut_event Hcut; try discriminate Hui; split; reflexivity.
Qed.

(** X3. When [__exit__] is handed an exception and returns a true value,
    the exception is gone: the run ends there, without an "Error: " line and
    with exit status 0, whatever was raised. *)
Theorem swallowed_exception_exits_0
    (environ : environment) (h : H) t out pre e v post :
  run_script respond environ h = (t, out) ->
  t = List.app pre (ECall (ctx_exit (Some e)) (Returns v) :: post) ->
  truthy v = true ->
  post = [] /\ out = Exited 0 /\ existsb is_error_line (stdout t) = false.
Proof.
  intros Hrun.
  run_cases Hrun; intros Hcut Htrue; cbn in Hcut;
    cut_event Hcut; try congruence; show_literals; cbn; auto.
Qed.

(** X4. An [Exception] raised by [__exit__] itself reaches the [except]
    clause: its text is the "Error: " line, in place of a failure that was
    in flight, and the exit status is 1; after a complete sequence this
    happens with "Automation completed successfully" already printed. *)
Theorem exception_from_exit_is_reported
    (environ : environment) (h : H) t out pre x e post :
  run_script respond environ h = (t, out) ->
  t = List.app pre (ECall (ctx_exit x) (Raises e) :: post) ->
  isinstance_Exception e = true ->
  post = [EPrint ("Error: " ++ exc_str e)]
  /\ out = Exited 1
  /\ (x = None -> In "Automation completed successfully" (stdout pre)).
Proof.
  intros Hrun.
  run_cases Hrun; intros Hcut Hexc; cbn in Hcut;
    cut_event Hcut; try discriminate Hexc; show_literals; cbn;
    (split; [reflexivity | split; [reflexivity |]]);
    intros Hnone; try discriminate Hnone; auto 10.
Qed.

(** X5. An exception that is not an [Exception] ([KeyboardInterrupt],
    [SystemExit]) raised by the constructor, [__enter__] or a UI action is
    not handled: provided [__exit__], if it is reached, returns a false
    value, no "Error: " line is printed and the process ends with that
    exception: for [SystemExit] with the status of its code (256 gives 0,
    -1 gives 255), otherwise with a traceback. *)
Theorem non_Exception_passes_through
    (environ : environment) (h : H) t out pre c e post :
  run_script respond environ h = (t, out) ->
  t = List.app pre (ECall c (Raises e) :: post) ->
  is_ctx_exit c = false ->
  isinstance_Exception e = false ->
  (forall v, answer_to is_ctx_exit t = Some (Returns v) -> truthy v = false) ->
  raised post = false ->
  existsb is_error_line (stdout t) = false
  /\ out = match e with
           | SystemExit code => Exited (exit_status code)
           | _ => Traceback e
           end.
Proof.
  intros Hrun.
  run_cases Hrun; intros Hcut Hc Hexc Hfalse Hpost; cbn in Hcut;
    cut_event Hcut; try discriminate; show_literals; cbn in *;
    try discriminate;
    try (specialize (Hfalse _ eq_refl); congruence);
    auto.
Qed.

(** X6. When everything raised is an [Exception], the exit status is 0 or
    1, and it is 1 exactly when a line starting with "Error: " was
    printed. *)
Theorem exit_status_matches_error_line
    (environ : environment) (h : H) t out :
  run_script respond environ h = (t, out) ->
  only_Exceptions t = true ->
  (out = Exited 0 /\ existsb is_error_line (stdout t) = false)
  \/ (out = Exited 1 /\ existsb is_error_line (stdout t) = true).
Proof.
  intros Hrun.
  run_cases Hrun; intros Honly; cbn in Honly;
    repeat match type of Honly with
           | context [isinstance_Exception ?e] => destruct e; cbn in Honly
           end;
    try discriminate Honly; show_literals; cbn;
    repeat match goal with
           | |- context [prefix "" ?d] => destruct d; cbn
           end;
    first [left; split; reflexivity | right; split; reflexivity].
Qed.

(** X7. With the address set and no call raising, whatever the host
    answers: the requests are the constructor, [__enter__], the fixed
    sequence gated by the name and the selection, and [__exit__] without an
    exception; three lines are printed, the middle one showing the folders
    as [str] gives them; the exit status is 0. *)
Theorem run_without_raise
    (environ : environment) (h : H) (address : string) t out :
  run_script respond environ h = (t, out) ->
  os_environ_get environ pipe_variable = PStr address ->
  address <> "" ->
  raised t = false ->
  requests t
  = VSCodeClient (PStr address)
    :: ctx_enter
    :: List.app (claimed_order (returned is_show_input_box t)
                               (returned is_show_quick_pick t))
                [ctx_exit None]
  /\ stdout t
     = ["Connecting to VS Code via: " ++ address;
        "Workspace folders: " ++ str (returned is_get_workspace_folders t);
        "Automation completed successfully"]
  /\ out = Exited 0.
Proof.
  intros Hrun Henv Hset.
  by_cases_at Hrun Henv Hset; try discriminate; show_literals;
    unfold claimed_order, returned; cbn; known_truth; auto.
Qed.

(** X8. The output channel is created at most once in a run, and only
    with a true-valued name: any such request has the name
    "Python Automation", the greeting built from the input-box result, and
    [show=True]. *)
Theorem output_channel_created_at_most_once
    (environ : environment) (h : H) t out :
  run_script respond environ h = (t, out) ->
  (List.length (filter is_create_output_channel (requests t)) <= 1)%nat
  /\ forall c,
       In c (requests t) ->
       is_create_output_channel c = true ->
       c = create_output_channel "Python Automation"
             ("Hello, " ++ str (returned is_show_input_box t)
                ++ "! This is Python speaking." ++ nl)
             true
         /\ truthy (returned is_show_input_box t) = true.
Proof.
  intros Hrun.
  run_cases Hrun; show_literals; unfold returned; cbn;
    (split; [lia |]); intros c' Hin Hkind;
    repeat (destruct Hin as [<- | Hin]; try discriminate Hkind);
    try contradiction; auto.
Qed.

(** X9. Once the folder request has returned, the next event is the line
    "Workspace folders: " followed by the folders, whatever they are (an
    empty list included), and the one after it is the input box, which is
    shown unconditionally. *)
Theorem folders_are_printed_at_once
    (environ : environment) (h : H) t out pre folders post :
  run_script respond environ h = (t, out) ->
  t = List.app pre (ECall get_workspace_folders (Returns folders) :: post) ->
  exists r post',
    post = EPrint ("Workspace folders: " ++ str folders)
           :: ECall (show_input_box input_box_options) r
           :: post'.
Proof.
  intros Hrun.
  run_cases Hrun; intros Hcut; cbn in Hcut;
    cut_event Hcut; show_literals; do 2 eexists; reflexivity.
Qed.

(** X10. The quick pick always offers the three fixed options, and its
    result is not checked against them: a true value, whatever it is, is
    echoed in the next request "You selected: ..."; a false value ([None],
    the empty string) leads straight to the status-bar message. *)
Theorem selection_is_reported_unchecked
    (environ : environment) (h : H) t out pre items options choice post :
  run_script respond environ h = (t, out) ->
  t = List.app pre
        (ECall (show_quick_pick items options) (Returns choice) :: post) ->
  items = ["Option A"; "Option B"; "Option C"]
  /\ exists r post',
       post = ECall (if truthy choice
                     then show_information_message ("You selected: " ++ str choice)
                     else set_status_bar_message "Python automation completed!" 5000)
                    r
              :: post'.
Proof.
  intros Hrun.
  run_cases Hrun; intros Hcut; cbn in Hcut;
    cut_event Hcut; show_literals;
    (split; [reflexivity |]); do 2 eexists; known_truth; reflexivity.
Qed.

End More.

(** * The properties on sample runs *)

Lemma missing_address_exits_1_on_sample :
  (os_environ_get not_launched pipe_variable = PNone
   \/ os_environ_get not_launched pipe_variable = PStr "")
  /\ stdout (fst (run_script silent not_launched tt))
     = ["Error: VSCODE_SOCKPUPPET_PIPE environment variable not set";
        "This script should be launched by an extension using Sockpuppet API"]
  /\ snd (run_script silent not_launched tt) = Exited 1
  /\ existsb is_VSCodeClient (requests (fst (run_script silent not_launched tt)))
     = false
  /\ requests (fst (run_script silent not_launched tt)) = [].
Proof.
  split; [left; reflexivity |].
  apply (missing_address_exits_1 silent not_launched tt);
    [reflexivity | left; reflexivity].
Defined.


Lemma cancelled_input_skips_name_steps_on_sample :
  raised (fst (run_script scripted launched input_cancelled)) = false
  /\ existsb is_create_output_channel
       (requests (fst (run_script scripted launched input_cancelled))) = false
  /\ existsb is_show_quick_pick
       (requests (fst (run_script scripted launched input_cancelled))) = false
  /\ In (set_status_bar_message "Python automation completed!" 5000)
        (requests (fst (run_script scripted launched input_cancelled)))
  /\ requests (fst (run_script scripted launched input_cancelled))
     = [VSCodeClient (os_environ_get launched pipe_variable);
        ctx_enter;
        show_information_message greeting;
        get_workspace_folders;
        show_input_box input_box_options;
        set_status_bar_message "Python automation completed!" 5000;
        ctx_exit None]
  /\ snd (run_script scripted launched input_cancelled) = Exited 0.
Proof.
  split; [reflexivity |].
  apply (cancelled_input_skips_name_steps scripted launched input_cancelled);
    reflexivity.
Defined.

Lemma cancelled_selection_skips_second_notification_on_sample :
  truthy (PStr "Ada") = true
  /\ existsb is_create_output_channel
       (requests (fst (run_script scripted launched ada_selects_nothing))) = true
  /\ (forall selection,
        ~ In (show_information_message ("You selected: " ++ selection))
             (requests (fst (run_script scripted launched ada_selects_nothing))))
  /\ In (set_status_bar_message "Python automation completed!" 5000)
        (requests (fst (run_script scripted launched ada_selects_nothing)))
  /\ requests (fst (run_script scripted launched ada_selects_nothing))
     = [VSCodeClient (os_environ_get launched pipe_variable);
        ctx_enter;
        show_information_message greeting;
        get_workspace_folders;
        show_input_box input_box_options;
        create_output_channel "Python Automation"
          ("Hello, " ++ str (PStr "Ada") ++ "! This is Python speaking." ++ nl) true;
        show_quick_pick ["Option A"; "Option B"; "Option C"]
          [("placeholder", "Hi " ++ str (PStr "Ada") ++ ", choose an option")];
        set_status_bar_message "Python automation completed!" 5000;
        ctx_exit None]
  /\ snd (run_script scripted launched ada_selects_nothing) = Exited 0.
Proof.
  split; [reflexivity |].
  apply (cancelled_selection_skips_second_notification
           scripted launched ada_selects_nothing (PStr "Ada"));
    reflexivity.
Defined.

(** C5 as stated fails: the session constructor raises, and the release
    path is never called. *)
Lemma failed_open_is_not_released :
  ~ released_after_failed_open scripted launched pipe_missing.
Proof.
  intros Hclaim.
  destruct (Hclaim
              [EPrint "Connecting to VS Code via: /tmp/sockpuppet.pipe";
               ECall (VSCodeClient (PStr "/tmp/sockpuppet.pipe"))
                     (Raises (PyException "[Errno 2] No such file or directory"));
               EPrint "Error: [Errno 2] No such file or directory"]
              (Exited 1)
              [EPrint "Connecting to VS Code via: /tmp/sockpuppet.pipe"]
              (VSCodeClient (PStr "/tmp/sockpuppet.pipe"))
              (PyException "[Errno 2] No such file or directory")
              [EPrint "Error: [Errno 2] No such file or directory"]
              eq_refl eq_refl eq_refl)
    as (_ & Hreleased & _).
  discriminate Hreleased.
Qed.

(** C6 as stated fails: the greeting raises, [__exit__] returns [True], and
    the script ends with status 0 and no error line. *)
Lemma swallowed_ui_failure_is_not_reported :
  ~ reported_after_ui_failure scripted launched greeting_fails_swallowed.
Proof.
  intros Hclaim.
  destruct (Hclaim
              (fst (run_script scripted launched greeting_fails_swallowed))
              (snd (run_script scripted launched greeting_fails_swallowed))
              (firstn 3 (fst (run_script scripted launched greeting_fails_swallowed)))
              (show_information_message greeting)
              (PyException "boom")
              (skipn 4 (fst (run_script scripted launched greeting_fails_swallowed)))
              eq_refl eq_refl eq_refl eq_refl)
    as (_ & _ & _ & Hexit).
  discriminate Hexit.
Qed.

Lemma failed_open_reports_error_on_sample :
  is_open ctx_enter = true
  /\ isinstance_Exception (PyException "Could not connect to VS Code") = true
  /\ existsb is_ui_action
       (requests (fst (run_script scripted launched connect_refused))) = false
  /\ existsb is_ctx_exit
       (requests (fst (run_script scripted launched connect_refused))) = false
  /\ [EPrint "Error: Could not connect to VS Code"]
     = [EPrint ("Error: " ++ exc_str (PyException "Could not connect to VS Code"))]
  /\ snd (run_script scripted launched connect_refused) = Exited 1.
Proof.
  split; [reflexivity | split; [reflexivity |]].
  apply (failed_open_reports_error scripted launched connect_refused
           _ _
           [EPrint "Connecting to VS Code via: /tmp/sockpuppet.pipe";
            ECall (VSCodeClient (PStr "/tmp/sockpuppet.pipe")) (Returns PNone)]
           ctx_enter);
    reflexivity.
Defined.

Lemma ui_failure_aborts_run_on_sample :
  is_ui_action (show_quick_pick ["Option A"; "Option B"; "Option C"]
                  [("placeholder", "Hi Ada, choose an option")]) = true
  /\ isinstance_Exception (PyException "request timed out") = true
  /\ truthy PNone = false
  /\ skipn 9 (fst (run_script scripted launched quick_pick_fails))
     = [ECall (ctx_exit (Some (PyException "request timed out"))) (Returns PNone);
        EPrint ("Error: " ++ exc_str (PyException "request timed out"))]
  /\ snd (run_script scripted launched quick_pick_fails) = Exited 1.
Proof.
  split; [reflexivity | split; [reflexivity | split; [reflexivity |]]].
  destruct (ui_failure_aborts_run scripted launched quick_pick_fails
              (fst (run_script scripted launched quick_pick_fails))
              (snd (run_script scripted launched quick_pick_fails))
              (firstn 8 (fst (run_script scripted launched quick_pick_fails)))
              (show_quick_pick ["Option A"; "Option B"; "Option C"]
                 [("placeholder", "Hi Ada, choose an option")])
              (PyException "request timed out")
              (skipn 9 (fst (run_script scripted launched quick_pick_fails)))
              eq_refl eq_refl eq_refl eq_refl)
    as (r & post' & Hpost & _ & Hend).
  injection Hpost as <- <-.
  destruct (Hend PNone eq_refl eq_refl) as [_ Hexit].
  split; [reflexivity | exact Hexit].
Defined.


Lemma empty_name_is_treated_as_cancelled_on_sample :
  raised (fst (run_script scripted launched input_empty)) = false
  /\ existsb is_create_output_channel
       (requests (fst (run_script scripted launched input_empty))) = false
  /\ existsb is_show_quick_pick
       (requests (fst (run_script scripted launched input_empty))) = false
  /\ In (set_status_bar_message "Python automation completed!" 5000)
        (requests (fst (run_script scripted launched input_empty)))
  /\ snd (run_script scripted launched input_empty) = Exited 0.
Proof.
  split; [reflexivity |].
  apply (proj2 (empty_name_is_treated_as_cancelled scripted launched input_empty));
    reflexivity.
Defined.

Lemma connecting_line_precedes_acquisition_on_sample :
  (exists r rest,
      fst (run_script scripted launched connect_refused)
      = EPrint ("Connecting to VS Code via: " ++ "/tmp/sockpuppet.pipe")
        :: ECall (VSCodeClient (PStr "/tmp/sockpuppet.pipe")) r
        :: rest)
  /\ existsb (String.prefix "Connecting to VS Code via: ")
       (stdout (fst (run_script scripted launched_empty connect_refused)))
     = false.
Proof.
  split.
  - apply (proj1 (connecting_line_precedes_acquisition
                    scripted launched connect_refused _ _ eq_refl)
             "/tmp/sockpuppet.pipe");
      [reflexivity | discriminate].
  - apply (proj2 (connecting_line_precedes_acquisition
                    scripted launched_empty connect_refused _ _ eq_refl)).
    right. reflexivity.
Defined.

Lemma session_released_exactly_once_on_sample :
  entered (fst (run_script scripted launched input_cancelled)) = true
  /\ (exists front x,
        requests (fst (run_script scripted launched input_cancelled))
        = List.app front [ctx_exit x]
        /\ existsb is_ctx_exit front = false)
  /\ entered (fst (run_script scripted launched connect_refused)) = false
  /\ existsb is_ctx_exit
       (requests (fst (run_script scripted launched connect_refused))) = false.
Proof.
  split; [reflexivity |]. split.
  - apply (proj1 (session_released_exactly_once scripted launched input_cancelled
                    _ _ eq_refl)).
    reflexivity.
  - split; [reflexivity |].
    apply (proj2 (session_released_exactly_once scripted launched connect_refused
                    _ _ eq_refl)).
    reflexivity.
Defined.

Lemma ui_requests_inside_session_on_sample :
  is_ui_action (show_quick_pick ["Option A"; "Option B"; "Option C"]
                  [("placeholder", "Hi Ada, choose an option")]) = true
  /\ entered (firstn 8 (fst (run_script scripted launched quick_pick_fails))) = true
  /\ existsb is_ctx_exit
       (requests (firstn 8 (fst (run_script scripted launched quick_pick_fails))))
     = false.
Proof.
  split; [reflexivity |].
  apply (ui_requests_inside_session scripted launched quick_pick_fails
           (fst (run_script scripted launched quick_pick_fails))
           (snd (run_script scripted launched quick_pick_fails))
           (firstn 8 (fst (run_script scripted launched quick_pick_fails)))
           (show_quick_pick ["Option A"; "Option B"; "Option C"]
              [("placeholder", "Hi Ada, choose an option")])
           (Raises (PyException "request timed out"))
           (skipn 9 (fst (run_script scripted launched quick_pick_fails))));
    reflexivity.
Defined.

Lemma swallowed_exception_exits_0_on_sample :
  truthy (PBool true) = true
  /\ skipn 5 (fst (run_script scripted launched greeting_fails_swallowed)) = []
  /\ snd (run_script scripted launched greeting_fails_swallowed) = Exited 0
  /\ existsb is_error_line
       (stdout (fst (run_script scripted launched greeting_fails_swallowed)))
     = false.
Proof.
  split; [reflexivity |].
  apply (swallowed_exception_exits_0 scripted launched greeting_fails_swallowed
           (fst (run_script scripted launched greeting_fails_swallowed))
           (snd (run_script scripted launched greeting_fails_swallowed))
           (firstn 4 (fst (run_script scripted launched greeting_fails_swallowed)))
           (PyException "boom") (PBool true));
    reflexivity.
Defined.

Lemma exception_from_exit_is_reported_on_sample :
  isinstance_Exception (PyException "Broken pipe") = true
  /\ skipn 13 (fst (run_script scripted launched release_fails))
     = [EPrint ("Error: " ++ exc_str (PyException "Broken pipe"))]
  /\ snd (run_script scripted launched release_fails) = Exited 1
  /\ In "Automation completed successfully"
        (stdout (firstn 12 (fst (run_script scripted launched release_fails)))).
Proof.
  split; [reflexivity |].
  destruct (exception_from_exit_is_reported scripted launched release_fails
              (fst (run_script scripted launched release_fails))
              (snd (run_script scripted launched release_fails))
              (firstn 12 (fst (run_script scripted launched release_fails)))
              None (PyException "Broken pipe")
              (skipn 13 (fst (run_script scripted launched release_fails)))
              eq_refl eq_refl eq_refl)
    as (Hpost & Hout & Hline).
  exact (conj Hpost (conj Hout (Hline eq_refl))).
Defined.

Lemma non_Exception_passes_through_on_sample :
  isinstance_Exception (PyBaseException "KeyboardInterrupt") = false
  /\ raised (skipn 4 (fst (run_script scripted launched interrupted))) = false
  /\ existsb is_error_line (stdout (fst (run_script scripted launched interrupted)))
     = false
  /\ snd (run_script scripted launched interrupted)
     = Traceback (PyBaseException "KeyboardInterrupt").
Proof.
  split; [reflexivity | split; [reflexivity |]].
  apply (non_Exception_passes_through scripted launched interrupted
           (fst (run_script scripted launched interrupted))
           (snd (run_script scripted launched interrupted))
           (firstn 3 (fst (run_script scripted launched interrupted)))
           (show_information_message greeting)
           (PyBaseException "KeyboardInterrupt")
           (skipn 4 (fst (run_script scripted launched interrupted))));
    try reflexivity.
  intros v Hv. injection Hv as <-. reflexivity.
Defined.

Lemma exit_status_matches_error_line_on_sample :
  only_Exceptions (fst (run_script scripted launched quick_pick_fails)) = true
  /\ ((snd (run_script scripted launched quick_pick_fails) = Exited 0
       /\ existsb is_error_line
            (stdout (fst (run_script scripted launched quick_pick_fails))) = false)
      \/ (snd (run_script scripted launched quick_pick_fails) = Exited 1
          /\ existsb is_error_line
               (stdout (fst (run_script scripted launched quick_pick_fails))) = true)).
Proof.
  split; [reflexivity |].
  apply (exit_status_matches_error_line scripted launched quick_pick_fails);
    reflexivity.
Defined.

Lemma run_without_raise_on_sample :
  raised (fst (run_script scripted launched ada_selects_nothing)) = false
  /\ requests (fst (run_script scripted launched ada_selects_nothing))
     = VSCodeClient (PStr "/tmp/sockpuppet.pipe")
       :: ctx_enter
       :: List.app
            (claimed_order
               (returned is_show_input_box
                  (fst (run_script scripted launched ada_selects_nothing)))
               (returned is_show_quick_pick
                  (fst (run_script scripted launched ada_selects_nothing))))
            [ctx_exit None]
  /\ stdout (fst (run_script scripted launched ada_selects_nothing))
     = ["Connecting to VS Code via: " ++ "/tmp/sockpuppet.pipe";
        "Workspace folders: "
          ++ str (returned is_get_workspace_folders
                    (fst (run_script scripted launched ada_selects_nothing)));
        "Automation completed successfully"]
  /\ snd (run_script scripted launched ada_selects_nothing) = Exited 0.
Proof.
  split; [reflexivity |].
  apply (run_without_raise scripted launched ada_selects_nothing
           "/tmp/sockpuppet.pipe");
    [reflexivity | reflexivity | discriminate | reflexivity].
Defined.

Lemma output_channel_created_at_most_once_on_sample :
  (List.length
     (filter is_create_output_channel
        (requests (fst (run_script scripted launched ada_selects_b)))) <= 1)%nat
  /\ forall c,
       In c (requests (fst (run_script scripted launched ada_selects_b))) ->
       is_create_output_channel c = true ->
       c = create_output_channel "Python Automation"
             ("Hello, "
                ++ str (returned is_show_input_box
                          (fst (run_script scripted launched ada_selects_b)))
                ++ "! This is Python speaking." ++ nl)
             true
       /\ truthy (returned is_show_input_box
                    (fst (run_script scripted launched ada_selects_b))) = true.
Proof.
  apply (output_channel_created_at_most_once scripted launched ada_selects_b
           _ (snd (run_script scripted launched ada_selects_b))).
  reflexivity.
Defined.

Lemma folders_are_printed_at_once_on_sample :
  exists r post',
    skipn 5 (fst (run_script scripted launched input_cancelled))
    = EPrint ("Workspace folders: " ++ str (PList []))
      :: ECall (show_input_box input_box_options) r
      :: post'.
Proof.
  apply (folders_are_printed_at_once scripted launched input_cancelled
           (fst (run_script scripted launched input_cancelled))
           (snd (run_script scripted launched input_cancelled))
           (firstn 4 (fst (run_script scripted launched input_cancelled))));
    reflexivity.
Defined.

Lemma selection_is_reported_unchecked_on_sample :
  ["Option A"; "Option B"; "Option C"] = ["Option A"; "Option B"; "Option C"]
  /\ exists r post',
       skipn 9 (fst (run_script scripted launched ada_selects_b))
       = ECall (if truthy (PStr "Option B")
                then show_information_message
                       ("You selected: " ++ str (PStr "Option B"))
                else set_status_bar_message "Python automation completed!" 5000)
               r
         :: post'.
Proof.
  apply (selection_is_reported_unchecked scripted launched ada_selects_b
           (fst (run_script scripted launched ada_selects_b))
           (snd (run_script scripted launched ada_selects_b))
           (firstn 8 (fst (run_script scripted launched ada_selects_b)))
           ["Option A"; "Option B"; "Option C"]
           [("placeholder", "Hi Ada, choose an option")]
           (PStr "Option B"));
    reflexivity.
Defined.
